(** * docker_image_creator: a shallow embedding of ci/build/docker_image_creator.py

    The script shells out to the container engine, git and setup.py, copies or
    downloads a binary and formats paths and tags.  The string and list code
    is embedded as pure functions; everything that touches the platform
    (filesystem, HTTP, child processes, glob) runs in a small state-and-error
    monad over an explicit world, with the platform's answers supplied by an
    environment record. *)

From Stdlib Require Import Strings.Ascii Strings.Byte ZArith Lia.
From stdpp Require Import base strings gmap list.

Local Open Scope string_scope.
Local Open Scope list_scope.

(** ** Python string primitives *)

Module PyStr.

(** [s.split(sep)] for a one-character separator: the pieces between the
    occurrences of [sep]; the result is never empty. *)
Fixpoint split (sep : ascii) (s : string) : list string :=
  match s with
  | EmptyString => [""]
  | String c r =>
      if Ascii.eqb c sep then "" :: split sep r
      else match split sep r with
           | h :: t => String c h :: t
           | [] => [String c ""]
           end
  end.

(** [l[0]] and [l[-1]] on the result of [split], which always has an
    element (lemma [split_not_nil]); the default is never returned. *)
Definition first_piece (l : list string) : string := hd "" l.
Definition last_piece (l : list string) : string := List.last l "".

(** [s[0]] : IndexError (here [None]) on the empty string. *)
Definition getitem0 (s : string) : option string :=
  match s with
  | EmptyString => None
  | String c _ => Some (String c "")
  end.

(** [s[-1]] : IndexError (here [None]) on the empty string. *)
Fixpoint getitem_last (s : string) : option string :=
  match s with
  | EmptyString => None
  | String c EmptyString => Some (String c "")
  | String _ r => getitem_last r
  end.

Definition startswith_sep (s : string) : bool :=
  match s with
  | String c _ => Ascii.eqb c "/"
  | EmptyString => false
  end.

Fixpoint endswith_sep (s : string) : bool :=
  match s with
  | EmptyString => false
  | String c EmptyString => Ascii.eqb c "/"
  | String _ r => endswith_sep r
  end.

(** [c not in s] *)
Fixpoint lacks (c : ascii) (s : string) : bool :=
  match s with
  | EmptyString => true
  | String d r => negb (Ascii.eqb d c) && lacks c r
  end.

End PyStr.

(** ** posixpath *)

Module OsPath.

(** One round of the loop of [posixpath.join]: an absolute component
    discards what came before, otherwise a single separator is put between
    the two unless the left part is empty or already ends with one. *)
Definition join2 (path b : string) : string :=
  if PyStr.startswith_sep b then b
  else if (String.eqb path "" || PyStr.endswith_sep path)%bool then path +:+ b
  else path +:+ "/" +:+ b.

(** [os.path.join(a, *p)] *)
Definition join (a : string) (p : list string) : string :=
  fold_left join2 p a.

(** [os.path.basename(p)] is [p[p.rfind('/')+1:]], the piece after the
    last separator. *)
Definition basename (p : string) : string :=
  PyStr.last_piece (PyStr.split "/" p).

End OsPath.

(** ** The pure part of [build_docker_image] and [main] *)

Inductive Processor := cpu | gpu.

Definition processor_str (p : Processor) : string :=
  match p with cpu => "cpu" | gpu => "gpu" end.

(** Line 29: [py_v = 'py{}'.format(python_version.split('.')[0])] *)
Definition py_v (python_version : string) : string :=
  "py" +:+ PyStr.first_piece (PyStr.split "." python_version).

(** Line 30 *)
Definition base_docker_path (main_directory_path framework_version : string) : string :=
  OsPath.join main_directory_path ["docker"; framework_version; "base"].

(** Line 31 *)
Definition final_docker_path (main_directory_path framework_version python_version : string) : string :=
  OsPath.join main_directory_path ["docker"; framework_version; "final"; py_v python_version].

(** Lines 34 and 68: [framework_version not in ['1.4.1', '1.5.0']] *)
Definition needs_binary (framework_version : string) : bool :=
  negb (String.eqb framework_version "1.4.1" || String.eqb framework_version "1.5.0").

(** Line 47 *)
Definition image_name (framework_version : string) (processor : Processor)
    (python_version : string) : string :=
  "tensorflow-base:" +:+ framework_version +:+ "-" +:+ processor_str processor
    +:+ "-" +:+ py_v python_version.

Definition dockerfile (processor : Processor) : string :=
  "Dockerfile." +:+ processor_str processor.

(** Line 48: the argument list of the base build. *)
Definition base_command_list (docker framework_version : string) (processor : Processor)
    (python_version : string) : list string :=
  [docker; "build"; "-t"; image_name framework_version processor python_version;
   "-f"; dockerfile processor; "."].

(** Lines 64-66: the loop body, two appends per tag. *)
Definition append_tag (final_image_repository : string) (acc : list string) (tag : string)
    : list string :=
  (acc ++ ["-t"]) ++ [final_image_repository +:+ ":" +:+ tag].

(** Line 69: [py_v[-1]]; [py_v] starts with "py", so the index is in range
    (lemma [py_v_last_is_Some]) and the default is never used. *)
Definition py_version_arg (python_version : string) : string :=
  default "" (PyStr.getitem_last (py_v python_version)).

(** Lines 63-71.  [binary_filename] is bound only when the fetch of lines
    34-43 ran, which is exactly when line 68 reads it. *)
Definition final_command_list (docker final_image_repository : string)
    (final_image_tags : list string) (framework_version python_version : string)
    (processor : Processor) (binary_filename : string) : list string :=
  let cmd := [docker; "build"] in
  let cmd := fold_left (append_tag final_image_repository) final_image_tags cmd in
  let cmd :=
    if needs_binary framework_version
    then cmd ++ ["--build-arg"; "py_version=" +:+ py_version_arg python_version;
                 "--build-arg"; "framework_installable=" +:+ binary_filename]
    else cmd in
  cmd ++ ["-f"; dockerfile processor; "."].


(** ** The platform

    [files] gives the contents of the regular files by the path they are
    read through.  [writable] is the set of paths on which
    [open(path, 'wb')] succeeds (parent directory present, permissions
    granted, not a directory).  Which file a path leads to, through links,
    ".." and other spellings, is what [os.stat] reports: the environment
    answers it ([stat] below). *)

Inductive exn :=
| IndexError
| SameFileError (src dst : string)
| IOError (path : string)
| OSError (program : string)
| RequestException (url : string).

Record Response := { status_code : Z; content : list byte }.

(** The two fields of an [os.stat] result that identify a file. *)
Record StatId := { st_dev : N; st_ino : N }.

Record FS := { files : gmap string (list byte); writable : gset string }.

Inductive Event :=
| Print (line : string)
| Call (args : list string) (cwd : string)
| HttpGet (url : string)
| CopyFile (src dst : string)
| OpenWrite (path : string).

Record World := { fs : FS; trace : list Event }.

(** What the platform answers.  [subprocess] is the child process started by
    [subprocess.call(args, cwd=cwd)]: it either cannot be started (OSError)
    or runs to an exit code, and may change the filesystem.  [http] is
    [requests.get]: a response of any status, or an exception when no
    response arrives.  [glob] is [glob.glob].  [script_dir] is
    [os.path.dirname(os.path.realpath(__file__))].  [stat] is [os.stat] as
    far as [os.path.samefile] reads it: the device and inode of the file a
    path leads to, or [None] for the OSError of a path that leads
    nowhere. *)
Record Env := {
  script_dir : string;
  subprocess : list string -> string -> FS -> (exn + Z) * FS;
  http : string -> exn + Response;
  glob : FS -> string -> list string;
  stat : FS -> string -> option StatId
}.

(** ** State and exception monad *)

Definition M (A : Type) : Type := World -> (exn + A) * World.

Definition ret {A} (a : A) : M A := fun w => (inr a, w).

Definition raise {A} (e : exn) : M A := fun w => (inl e, w).

Definition bind {A B} (m : M A) (k : A -> M B) : M B :=
  fun w => match m w with
           | (inr a, w') => k a w'
           | (inl e, w') => (inl e, w')
           end.

(** An expression statement: the value is computed and dropped. *)
Definition void {A} (m : M A) : M unit :=
  fun w => match m w with
           | (inr _, w') => (inr tt, w')
           | (inl e, w') => (inl e, w')
           end.

Notation "x <- c ;; k" := (bind c (fun x => k))
  (at level 100, c at next level, right associativity).
Notation "c ;; k" := (bind c (fun _ => k))
  (at level 100, right associativity).

Definition emit (e : Event) (w : World) : World :=
  {| fs := fs w; trace := trace w ++ [e] |}.

Definition set_fs (f : FS) (w : World) : World :=
  {| fs := f; trace := trace w |}.

Definition print (line : string) : M unit :=
  fun w => (inr tt, emit (Print line) w).

(** [os.path.isfile] *)
Definition isfile (path : string) : M bool :=
  fun w => (inr (bool_decide (is_Some (files (fs w) !! path))), w).

(** [open(path, 'wb')] followed by one [write(data)] and the close of the
    [with] block. *)
Definition write_file (path : string) (data : list byte) : M unit :=
  fun w =>
    let w := emit (OpenWrite path) w in
    if bool_decide (path ∈ writable (fs w))
    then (inr tt, set_fs {| files := <[path := data]> (files (fs w));
                            writable := writable (fs w) |} w)
    else (inl (IOError path), w).

(** [os.path.samestat]: same inode on the same device. *)
Definition samestat (s1 s2 : StatId) : bool :=
  N.eqb (st_ino s1) (st_ino s2) && N.eqb (st_dev s1) (st_dev s2).

(** [shutil._samefile]: [os.path.samefile(src, dst)], which stats both
    paths and compares device and inode, with its OSError turned into
    False. *)
Definition samefile (env : Env) (f : FS) (src dst : string) : bool :=
  match stat env f src, stat env f dst with
  | Some s1, Some s2 => samestat s1 s2
  | _, _ => false
  end.

(** [shutil.copyfile(src, dst)]: refuses to copy a file onto itself, then
    opens [src] for reading and [dst] for writing and copies the bytes. *)
Definition copyfile (env : Env) (src dst : string) : M unit :=
  fun w =>
    let w := emit (CopyFile src dst) w in
    if samefile env (fs w) src dst then (inl (SameFileError src dst), w)
    else match files (fs w) !! src with
         | None => (inl (IOError src), w)
         | Some data =>
             if bool_decide (dst ∈ writable (fs w))
             then (inr tt, set_fs {| files := <[dst := data]> (files (fs w));
                                     writable := writable (fs w) |} w)
             else (inl (IOError dst), w)
         end.

(** [requests.get(url)] *)
Definition requests_get (env : Env) (url : string) : M Response :=
  fun w =>
    let w := emit (HttpGet url) w in
    match http env url with
    | inr r => (inr r, w)
    | inl e => (inl e, w)
    end.

(** [subprocess.call(args, cwd=cwd)]: returns the exit code. *)
Definition subprocess_call (env : Env) (args : list string) (cwd : string) : M Z :=
  fun w =>
    let w := emit (Call args cwd) w in
    match subprocess env args cwd (fs w) with
    | (inr code, f) => (inr code, set_fs f w)
    | (inl e, f) => (inl e, set_fs f w)
    end.

(** [glob.glob(pattern)] *)
Definition glob_glob (env : Env) (pattern : string) : M (list string) :=
  fun w => (inr (glob env (fs w) pattern), w).

(** [l[0]] on a list *)
Definition list_getitem0 {A} (l : list A) : M A :=
  match l with
  | x :: _ => ret x
  | [] => raise IndexError
  end.

(** [s[0]] on a string *)
Definition str_getitem0 (s : string) : M string :=
  match PyStr.getitem0 s with
  | Some c => ret c
  | None => raise IndexError
  end.

(** ** [build_docker_image], lines 14-72 *)

(** Lines 36-43: the two ways of getting the binary.  Returns
    [binary_filename]. *)
Definition fetch_binary (env : Env) (binary_path destination_dir : string) : M string :=
  is_file <- isfile binary_path ;;
  if is_file then
    let binary_filename := OsPath.basename binary_path in
    copyfile env binary_path (OsPath.join destination_dir [binary_filename]) ;;
    ret binary_filename
  else
    let binary_filename := PyStr.last_piece (PyStr.split "/" binary_path) in
    binary_response <- requests_get env binary_path ;;
    write_file (OsPath.join destination_dir [binary_filename]) (content binary_response) ;;
    ret binary_filename.

(** Lines 34-43.  [None] stands for the local [binary_filename] left
    unbound. *)
Definition get_binary (env : Env) (framework_version binary_path destination_dir : string)
    : M (option string) :=
  if needs_binary framework_version then
    print "Getting binary..." ;;
    binary_filename <- fetch_binary env binary_path destination_dir ;;
    ret (Some binary_filename)
  else ret None.

(** Lines 46-49 *)
Definition build_base_image (env : Env) (docker framework_version python_version : string)
    (processor : Processor) (main_directory_path : string) : M unit :=
  print "Building base image..." ;;
  void (subprocess_call env
          (base_command_list docker framework_version processor python_version)
          (base_docker_path main_directory_path framework_version)).

Definition extensions_url : string :=
  "https://github.com/aws/sagemaker-tensorflow-extensions.git".

(** Lines 52-58 *)
Definition stage_sources (env : Env) (main_directory_path final_dir : string) : M unit :=
  print "Building final image..." ;;
  void (subprocess_call env ["git"; "clone"; extensions_url] final_dir) ;;
  void (subprocess_call env ["python"; "setup.py"; "sdist"] main_directory_path).

Definition sdist_pattern (main_directory_path : string) : string :=
  OsPath.join main_directory_path ["dist"; "sagemaker_tensorflow_container-*.tar.gz"].

(** Lines 59-61 *)
Definition copy_sdist (env : Env) (main_directory_path final_dir : string) : M unit :=
  matches <- glob_glob env (sdist_pattern main_directory_path) ;;
  tar_file <- list_getitem0 matches ;;
  let tar_filename := OsPath.basename tar_file in
  copyfile env tar_file (OsPath.join final_dir [tar_filename]).

(** Lines 63-72.  The unbound [binary_filename] of a legacy version is never
    read: [final_command_list] looks at it under the same test that bound
    it. *)
Definition build_final_image (env : Env) (docker final_image_repository : string)
    (final_image_tags : list string) (framework_version python_version : string)
    (processor : Processor) (binary_filename : option string) (final_dir : string) : M unit :=
  void (subprocess_call env
          (final_command_list docker final_image_repository final_image_tags
             framework_version python_version processor (default "" binary_filename))
          final_dir).

(** Everything before the glob of line 59. *)
Definition build_prefix (env : Env) (framework_version python_version : string)
    (processor : Processor) (binary_path docker main_directory_path : string)
    : M (option string) :=
  let final_dir := final_docker_path main_directory_path framework_version python_version in
  binary_filename <- get_binary env framework_version binary_path final_dir ;;
  build_base_image env docker framework_version python_version processor main_directory_path ;;
  stage_sources env main_directory_path final_dir ;;
  ret binary_filename.

Definition build_docker_image (env : Env) (framework_version python_version : string)
    (processor : Processor) (binary_path final_image_repository : string)
    (final_image_tags : list string) (docker main_directory_path : string) : M unit :=
  let final_dir := final_docker_path main_directory_path framework_version python_version in
  binary_filename <- build_prefix env framework_version python_version processor
                       binary_path docker main_directory_path ;;
  copy_sdist env main_directory_path final_dir ;;
  build_final_image env docker final_image_repository final_image_tags
    framework_version python_version processor binary_filename final_dir.

(** ** [main], lines 74-97 *)

(** The namespace returned by [parser.parse_args()]. *)
Record Args := {
  framework_version : string;
  python_version : string;
  processor_type : Processor;
  binary_path : string;
  nvidia_docker : bool;
  final_image_repository : string;
  final_image_tags : list string
}.

(** A command line as the parser has split it: the values of the four
    positional arguments, the flag present or not, each option absent or
    followed by its values.  What the parser turns down before it gets that
    far (a missing positional, an unknown option, a value that reads as an
    option) and the -h exit have no record here. *)
Record CommandLine := {
  cl_framework_version : string;
  cl_python_version : string;
  cl_processor_type : string;
  cl_binary_path : string;
  cl_nvidia_docker : bool;
  cl_final_image_repository : option string;
  cl_final_image_tags : option (list string)
}.

(** Lines 76-85 on such a record: [choices] on the processor, the defaults
    of the two options, [nargs='+'] on the tags.  [None] is the parser's
    error exit for these two checks. *)
Definition parse_args (cl : CommandLine) : option Args :=
  match (if String.eqb (cl_processor_type cl) "cpu" then Some cpu
         else if String.eqb (cl_processor_type cl) "gpu" then Some gpu
         else None),
        (match cl_final_image_tags cl with
         | None => Some []
         | Some [] => None
         | Some (t :: ts) => Some (t :: ts)
         end) with
  | Some p, Some tags =>
      Some {| framework_version := cl_framework_version cl;
              python_version := cl_python_version cl;
              processor_type := p;
              binary_path := cl_binary_path cl;
              nvidia_docker := cl_nvidia_docker cl;
              final_image_repository :=
                default "preprod-tensorflow" (cl_final_image_repository cl);
              final_image_tags := tags |}
  | _, _ => None
  end.

(** Line 88 *)
Definition docker_of (args : Args) : string :=
  if nvidia_docker args then "nvidia-docker" else "docker".

(** Line 89 *)
Definition main_directory_path_of (env : Env) : string :=
  OsPath.join (script_dir env) [".."; ".."].

(** Lines 90-93 *)
Definition tags_of (args : Args) : M (list string) :=
  match final_image_tags args with
  | _ :: _ => ret (final_image_tags args)
  | [] =>
      c <- str_getitem0 (python_version args) ;;
      ret [framework_version args +:+ "-" +:+ processor_str (processor_type args)
             +:+ "-py" +:+ c]
  end.

(** Lines 86-97, after a successful parse. *)
Definition main_body (env : Env) (args : Args) : M unit :=
  let docker := docker_of args in
  let main_directory_path := main_directory_path_of env in
  tags <- tags_of args ;;
  build_docker_image env (framework_version args) (python_version args)
    (processor_type args) (binary_path args) (final_image_repository args)
    tags docker main_directory_path.

(** The exit status of the interpreter: 0 when [main] returns, 1 when an
    exception reaches the top level, 2 from the parser's error path. *)
Definition exit_status {A} (r : exn + A) : Z :=
  match r with inr _ => 0%Z | inl _ => 1%Z end.

Definition main (env : Env) (cl : CommandLine) (w : World) : Z * World :=
  match parse_args cl with
  | None => (2%Z, w)
  | Some args => let (r, w') := main_body env args w in (exit_status r, w')
  end.

(** The environment in which every child process that ran reports the exit
    code chosen by [f]; the effects of the children are untouched. *)
Definition with_exit_codes (f : list string -> string -> Z) (env : Env) : Env :=
  {| script_dir := script_dir env;
     subprocess := fun args cwd fs0 =>
       match subprocess env args cwd fs0 with
       | (inr _, fs1) => (inr (f args cwd), fs1)
       | (inl e, fs1) => (inl e, fs1)
       end;
     http := http env;
     glob := glob env;
     stat := stat env |}.

(** ** Vocabulary of the statements *)

(** The "-t repository:tag" pairs of a list of tags, in order. *)
Definition tag_pairs (repository : string) (tags : list string) : list string :=
  flat_map (fun tag => ["-t"; repository +:+ ":" +:+ tag]) tags.

(** The build arguments of lines 69-70. *)
Definition build_args (python_version binary_filename : string) : list string :=
  ["--build-arg"; "py_version=" +:+ py_version_arg python_version;
   "--build-arg"; "framework_installable=" +:+ binary_filename].


(** The child processes started along a trace, in order. *)
Fixpoint calls (t : list Event) : list (list string * string) :=
  match t with
  | [] => []
  | Call args cwd :: r => (args, cwd) :: calls r
  | _ :: r => calls r
  end.

(** ** A concrete platform for the scenarios

    One checkout under /repo with the script in /repo/ci/build.  The sdist
    step leaves one archive under dist/ when it succeeds; the other commands
    change nothing.  One URL answers with a wheel. *)

Module Demo.

Definition root : string := "/repo/ci/build/../..".

Definition archive : string :=
  "/repo/ci/build/../../dist/sagemaker_tensorflow_container-1.0.0.tar.gz".

Definition wheel_url : string := "https://example.com/wheels/tensorflow-1.8.0.whl".

Definition wheel : list byte := [x50; x4b; x03; x04].

Definition local_wheel : list byte := [x01; x02; x03].

(** [glob.glob] on the one directory the script looks into. *)
Definition find_archives (f : FS) (pattern : string) : list string :=
  if String.eqb pattern (sdist_pattern root)
     && bool_decide (is_Some (files f !! archive))
  then [archive] else [].

Definition answer (url : string) : exn + Response :=
  if String.eqb url wheel_url
  then inr {| status_code := 200; content := wheel |}
  else inl (RequestException url).

(** No links and one spelling per file: an existing file is identified by
    its path. *)
Definition stat_by_path (f : FS) (path : string) : option StatId :=
  if bool_decide (is_Some (files f !! path))
  then Some {| st_dev := 1; st_ino := Npos (encode path) |}
  else None.

(** Every command succeeds; sdist writes the archive. *)
Definition env : Env :=
  {| script_dir := "/repo/ci/build";
     subprocess := fun args cwd f =>
       if bool_decide (args = ["python"; "setup.py"; "sdist"])
       then (inr 0%Z, {| files := <[archive := [x1f; x8b]]> (files f);
                         writable := writable f |})
       else (inr 0%Z, f);
     http := answer;
     glob := find_archives;
     stat := stat_by_path |}.

(** Every command exits with status 1 and leaves the filesystem alone. *)
Definition failing_env : Env :=
  {| script_dir := "/repo/ci/build";
     subprocess := fun args cwd f => (inr 1%Z, f);
     http := answer;
     glob := find_archives;
     stat := stat_by_path |}.

Definition final_py3 : string := "/repo/ci/build/../../docker/1.8.0/final/py3".

Definition world : World :=
  {| fs := {| files := {[ "/tmp/bin.whl" := local_wheel ]};
              writable :=
                {[ "/repo/ci/build/../../docker/1.8.0/final/py3/bin.whl";
                   "/repo/ci/build/../../docker/1.8.0/final/py3/tensorflow-1.8.0.whl";
                   "/repo/ci/build/../../docker/1.8.0/final/py3/sagemaker_tensorflow_container-1.0.0.tar.gz";
                   "/repo/ci/build/../../docker/1.4.1/final/py2/sagemaker_tensorflow_container-1.0.0.tar.gz" ]} |};
     trace := [] |}.

(** python docker_image_creator.py 1.8.0 3.6.5 cpu /tmp/bin.whl *)
Definition cl_180 : CommandLine :=
  {| cl_framework_version := "1.8.0"; cl_python_version := "3.6.5";
     cl_processor_type := "cpu"; cl_binary_path := "/tmp/bin.whl";
     cl_nvidia_docker := false; cl_final_image_repository := None;
     cl_final_image_tags := None |}.

(** python docker_image_creator.py 1.4.1 2.7.4 cpu None *)
Definition cl_141 : CommandLine :=
  {| cl_framework_version := "1.4.1"; cl_python_version := "2.7.4";
     cl_processor_type := "cpu"; cl_binary_path := "None";
     cl_nvidia_docker := false; cl_final_image_repository := None;
     cl_final_image_tags := None |}.

(** python docker_image_creator.py 1.8.0 3.6.5 gpu /tmp/bin.whl --nvidia-docker
      --final-image-repository tf --final-image-tags latest 1.8.0-gpu *)
Definition cl_tags : CommandLine :=
  {| cl_framework_version := "1.8.0"; cl_python_version := "3.6.5";
     cl_processor_type := "gpu"; cl_binary_path := "/tmp/bin.whl";
     cl_nvidia_docker := true; cl_final_image_repository := Some "tf";
     cl_final_image_tags := Some ["latest"; "1.8.0-gpu"] |}.

(** What [cl_tags] parses to. *)
Definition args_tags : Args :=
  {| framework_version := "1.8.0"; python_version := "3.6.5"; processor_type := gpu;
     binary_path := "/tmp/bin.whl"; nvidia_docker := true;
     final_image_repository := "tf"; final_image_tags := ["latest"; "1.8.0-gpu"] |}.

End Demo.

(** ** Vocabulary of the further statements *)

(** The four child processes of a build in the order of lines 48, 55, 58 and
    72, each with its working directory. *)
Definition planned_calls (docker repo : string) (tags : list string)
    (fw pv : string) (proc : Processor) (root : string) (bin : option string)
    : list (list string * string) :=
  [ (base_command_list docker fw proc pv, base_docker_path root fw);
    (["git"; "clone"; extensions_url], final_docker_path root fw pv);
    (["python"; "setup.py"; "sdist"], root);
    (final_command_list docker repo tags fw pv proc (default "" bin),
     final_docker_path root fw pv) ].

(** The demo checkout on a machine without container engine: starting
    "docker" fails, the other commands succeed and change nothing. *)
Definition no_engine_env : Env :=
  {| script_dir := "/repo/ci/build";
     subprocess := fun args cwd f =>
       match args with
       | "docker" :: _ => (inl (OSError "docker"), f)
       | _ => (inr 0%Z, f)
       end;
     http := Demo.answer;
     glob := Demo.find_archives;
     stat := Demo.stat_by_path |}.


(** Bytes have decidable equality, so file contents can be compared. *)
#[global] Instance byte_eq_decision : EqDecision byte := Byte.byte_eq_dec.
(** ** The binary already in the final image directory

    The wheel lies in /repo/docker/1.8.0/final/py3.  The script reaches the
    same directory as /repo/ci/build/../../docker/1.8.0/final/py3, so the
    file is read through both spellings and [os.stat] reports one inode for
    them. *)

Module InPlace.

Definition given : string := "/repo/docker/1.8.0/final/py3/bin.whl".

Definition reached : string := "/repo/ci/build/../../docker/1.8.0/final/py3/bin.whl".

Definition canonical (path : string) : string :=
  if String.eqb path reached then given else path.

Definition stat_by_inode (f : FS) (path : string) : option StatId :=
  if bool_decide (is_Some (files f !! path))
  then Some {| st_dev := 1; st_ino := Npos (encode (canonical path)) |}
  else None.

Definition env : Env :=
  {| script_dir := "/repo/ci/build";
     subprocess := subprocess Demo.env;
     http := Demo.answer;
     glob := Demo.find_archives;
     stat := stat_by_inode |}.

Definition world : World :=
  {| fs := {| files := {[ given := Demo.local_wheel; reached := Demo.local_wheel ]};
              writable := {[ given; reached ]} |};
     trace := [] |}.

End InPlace.

(** ** Facts about the string primitives *)

Lemma split_not_nil (sep : ascii) (s : string) : PyStr.split sep s <> [].
Proof.
  destruct s as [|c r]; simpl; [discriminate|].
  destruct (Ascii.eqb c sep); [discriminate|].
  destruct (PyStr.split sep r); discriminate.
Qed.

(** The first piece of a split is the text before the first separator. *)
Lemma split_before_sep (sep : ascii) (x rest : string) :
  PyStr.lacks sep x = true ->
  PyStr.split sep (x +:+ String sep rest) = x :: PyStr.split sep rest.
Proof.
  induction x as [|c x IH]; simpl; intros H.
  - now rewrite Ascii.eqb_refl.
  - apply andb_prop in H as [Hc Hx].
    apply negb_true_iff in Hc. rewrite Hc, (IH Hx). reflexivity.
Qed.

(** The first piece is a prefix of the string that was split. *)
Lemma first_piece_prefix (sep : ascii) (s : string) :
  exists r, s = PyStr.first_piece (PyStr.split sep s) +:+ r.
Proof.
  induction s as [|c s [r IH]]; simpl.
  - exists "". reflexivity.
  - destruct (Ascii.eqb c sep).
    + exists (String c s). reflexivity.
    + destruct (PyStr.split sep s) as [|h t] eqn:E.
      * now apply split_not_nil in E.
      * exists r. simpl in *. now rewrite IH at 1.
Qed.

Lemma getitem_last_cons (c : ascii) (s : string) :
  s <> "" -> PyStr.getitem_last (String c s) = PyStr.getitem_last s.
Proof. destruct s; [congruence | reflexivity]. Qed.

Lemma getitem_last_is_Some (c : ascii) (s : string) :
  is_Some (PyStr.getitem_last (String c s)).
Proof.
  revert c. induction s as [|d s IH]; intros c.
  - simpl. eauto.
  - rewrite getitem_last_cons by discriminate. apply IH.
Qed.

(** Line 69 never indexes an empty string. *)
Lemma py_v_last_is_Some (python_version : string) :
  is_Some (PyStr.getitem_last (py_v python_version)).
Proof. unfold py_v. simpl. apply getitem_last_is_Some. Qed.

Lemma py_v_major (x rest : string) :
  PyStr.lacks "." x = true -> py_v (x +:+ String "." rest) = "py" +:+ x.
Proof. intros H. unfold py_v. now rewrite split_before_sep. Qed.

Lemma length_one_inv (s : string) :
  String.length s = 1 -> exists c, s = String c "".
Proof.
  destruct s as [|c [|d s]]; simpl; try discriminate. intros _. now exists c.
Qed.

Lemma string_app_inj_l (p a b : string) : p +:+ a = p +:+ b -> a = b.
Proof. induction p; simpl; [easy|]. intros H. injection H. auto. Qed.

(** ** The Python tag *)

(** C1, as the code has it: for a version string [x.rest] whose major
    component [x] holds no dot, the tag is "py" followed by the whole of [x];
    it is "py" followed by the first character of [x] exactly when [x] is a
    single character. *)
Theorem py_v_is_py_plus_major (x rest : string) :
  PyStr.lacks "." x = true ->
  py_v (x +:+ "." +:+ rest) = "py" +:+ x /\
  (forall c, PyStr.getitem0 x = Some c ->
     (py_v (x +:+ "." +:+ rest) = "py" +:+ c <-> String.length x = 1)).
Proof.
  intros H. change (x +:+ "." +:+ rest) with (x +:+ String "." rest).
  rewrite (py_v_major x rest H).
  split; [reflexivity|]. intros c Hc.
  destruct x as [|a x]; [discriminate|]. simpl in Hc. injection Hc as <-.
  split.
  - intros Heq. apply (string_app_inj_l "py") in Heq.
    injection Heq as ->. reflexivity.
  - intros Hlen. apply length_one_inv in Hlen as [d Hd].
    injection Hd as -> ->. reflexivity.
Qed.

Lemma py_v_is_py_plus_major_witness :
  PyStr.lacks "." "3" = true /\ py_v ("3" +:+ "." +:+ "6.5") = "py" +:+ "3".
Proof.
  split; [reflexivity|].
  exact (proj1 (py_v_is_py_plus_major "3" "6.5" eq_refl)).
Defined.

(** C1 as the specification words it fails on a two-digit major version:
    the tag of "10.0.0" is "py10", not "py" followed by the first character
    of "10". *)
Lemma py_v_two_digit_major :
  PyStr.getitem0 "10" = Some "1" /\
  py_v ("10" +:+ "." +:+ "0.0") = "py10" /\
  py_v ("10" +:+ "." +:+ "0.0") <> "py" +:+ "1".
Proof. repeat split; discriminate. Qed.

(** C10: the directory path and the base image name carry "py" plus the
    whole major component of the python version, the default final tag
    carries the first character of the python version, and the py_version
    build argument is the last character of the tag; the three agree
    exactly when the major component is one character long.  For "10.0.0"
    they are "py10", "py1" and "0". *)
Theorem python_major_three_readings
    (fw pv bp repo root : string) (proc : Processor) (nv : bool) (w : World) :
  let major := PyStr.first_piece (PyStr.split "." pv) in
  final_docker_path root fw pv
    = OsPath.join root ["docker"; fw; "final"; "py" +:+ major] /\
  image_name fw proc pv
    = "tensorflow-base:" +:+ fw +:+ "-" +:+ processor_str proc +:+ "-py" +:+ major /\
  tags_of {| framework_version := fw; python_version := pv; processor_type := proc;
             binary_path := bp; nvidia_docker := nv; final_image_repository := repo;
             final_image_tags := [] |} w
    = match PyStr.getitem0 pv with
      | Some c => (inr [fw +:+ "-" +:+ processor_str proc +:+ "-py" +:+ c], w)
      | None => (inl IndexError, w)
      end /\
  PyStr.getitem_last ("py" +:+ major) = Some (py_version_arg pv) /\
  ((PyStr.getitem0 pv = Some major /\ py_version_arg pv = major)
     <-> String.length major = 1) /\
  image_name "1.8.0" cpu "10.0.0" = "tensorflow-base:1.8.0-cpu-py10" /\
  fst (tags_of {| framework_version := "1.8.0"; python_version := "10.0.0";
                  processor_type := cpu; binary_path := bp; nvidia_docker := nv;
                  final_image_repository := repo; final_image_tags := [] |} w)
    = inr ["1.8.0-cpu-py1"] /\
  final_command_list "docker" "preprod-tensorflow" ["1.8.0-cpu-py1"] "1.8.0" "10.0.0"
      cpu "bin.whl"
    = ["docker"; "build"; "-t"; "preprod-tensorflow:1.8.0-cpu-py1";
       "--build-arg"; "py_version=0"; "--build-arg"; "framework_installable=bin.whl";
       "-f"; "Dockerfile.cpu"; "."].
Proof.
  intros major.
  split; [reflexivity|]. split; [reflexivity|].
  split.
  { unfold tags_of, str_getitem0, bind, ret, raise. simpl.
    destruct (PyStr.getitem0 pv); reflexivity. }
  split.
  { unfold py_version_arg. fold major.
    destruct (py_v_last_is_Some pv) as [c Hc]. unfold py_v in Hc. fold major in Hc.
    unfold py_v. fold major. now rewrite Hc. }
  split; [|repeat split].
  split.
  - intros [H0 _]. destruct pv as [|c r]; [discriminate|].
    simpl in H0. injection H0 as <-. reflexivity.
  - intros Hlen. apply length_one_inv in Hlen as [c Hc].
    destruct (first_piece_prefix "." pv) as [r Hr]. fold major in Hr.
    unfold py_version_arg, py_v. fold major. rewrite Hc in Hr |- *.
    rewrite Hr. split; reflexivity.
Qed.

(** ** Tags and the final command *)

Lemma fold_append_tag (repository : string) (tags acc : list string) :
  fold_left (append_tag repository) tags acc = acc ++ tag_pairs repository tags.
Proof.
  revert acc. induction tags as [|t ts IH]; intros acc; simpl.
  - now rewrite app_nil_r.
  - rewrite IH. unfold append_tag. now rewrite <- !app_assoc.
Qed.

(** The shape of the final command: engine, "build", the tag pairs, the
    build arguments when the version ships a binary, the Dockerfile. *)
Lemma final_command_list_shape docker repository tags fw pv proc bin :
  final_command_list docker repository tags fw pv proc bin
  = [docker; "build"] ++ tag_pairs repository tags
      ++ (if needs_binary fw then build_args pv bin else [])
      ++ ["-f"; dockerfile proc; "."].
Proof.
  unfold final_command_list. rewrite fold_append_tag.
  destruct (needs_binary fw); simpl; rewrite <- ?app_assoc; reflexivity.
Qed.

Lemma lacks_app_sep (c : ascii) (a b : string) :
  PyStr.lacks c (a +:+ String c b) = false.
Proof.
  induction a as [|d a IH]; simpl.
  - now rewrite Ascii.eqb_refl.
  - rewrite IH. apply andb_false_r.
Qed.

(** A "repository:tag" argument is neither of the two option words. *)
Lemma repo_tag_not_option (repository tag flag : string) :
  PyStr.lacks ":" flag = true -> repository +:+ ":" +:+ tag <> flag.
Proof.
  intros H E. rewrite <- E in H.
  change (repository +:+ ":" +:+ tag) with (repository +:+ String ":" tag) in H.
  rewrite lacks_app_sep in H. discriminate.
Qed.

Lemma count_t_tag_pairs (repository : string) (tags : list string) :
  count_occ String.string_dec (tag_pairs repository tags) "-t" = length tags.
Proof.
  induction tags as [|t ts IH]; simpl; [reflexivity|].
  destruct (String.string_dec "-t" "-t") as [_|N]; [|congruence].
  destruct (String.string_dec (repository +:+ ":" +:+ t) "-t") as [E|_].
  - now apply repo_tag_not_option in E.
  - now rewrite IH.
Qed.

Lemma build_arg_not_in_tag_pairs (repository : string) (tags : list string) :
  ~ In "--build-arg" (tag_pairs repository tags).
Proof.
  induction tags as [|t ts IH]; simpl; [tauto|].
  intros [E|[E|H]]; [discriminate| |tauto].
  now apply repo_tag_not_option in E.
Qed.

Lemma docker_of_cases (args : Args) :
  docker_of args = "docker" \/ docker_of args = "nvidia-docker".
Proof. unfold docker_of. destruct (nvidia_docker args); auto. Qed.

Lemma needs_binary_false_iff (fw : string) :
  needs_binary fw = false <-> fw = "1.4.1" \/ fw = "1.5.0".
Proof.
  unfold needs_binary. rewrite negb_false_iff, orb_true_iff, !String.eqb_eq.
  reflexivity.
Qed.

(** C6: when --final-image-tags is omitted and [c] is the first character of
    the python version, parsing succeeds with an empty tag list and lines
    90-93 produce exactly the one tag "<version>-<processor>-py<c>". *)
Theorem default_tag_when_omitted
    (fw pv bp c : string) (proc : Processor) (nv : bool) (repo : option string)
    (w : World) :
  PyStr.getitem0 pv = Some c ->
  exists args,
    parse_args {| cl_framework_version := fw; cl_python_version := pv;
                  cl_processor_type := processor_str proc; cl_binary_path := bp;
                  cl_nvidia_docker := nv; cl_final_image_repository := repo;
                  cl_final_image_tags := None |} = Some args /\
    final_image_tags args = [] /\
    tags_of args w = (inr [fw +:+ "-" +:+ processor_str proc +:+ "-py" +:+ c], w).
Proof.
  intros Hc. eexists. split; [|split].
  - unfold parse_args. destruct proc; reflexivity.
  - destruct proc; reflexivity.
  - unfold tags_of, str_getitem0, bind, ret.
    destruct proc; simpl; rewrite Hc; reflexivity.
Qed.

Lemma default_tag_when_omitted_witness :
  PyStr.getitem0 "3.6.5" = Some "3" /\
  exists args,
    parse_args {| cl_framework_version := "1.8.0"; cl_python_version := "3.6.5";
                  cl_processor_type := "cpu"; cl_binary_path := "/tmp/bin.whl";
                  cl_nvidia_docker := false; cl_final_image_repository := None;
                  cl_final_image_tags := None |} = Some args /\
    final_image_tags args = [] /\
    tags_of args {| fs := {| files := ∅; writable := ∅ |}; trace := [] |}
      = (inr ["1.8.0-cpu-py3"], {| fs := {| files := ∅; writable := ∅ |}; trace := [] |}).
Proof.
  split; [reflexivity|].
  exact (default_tag_when_omitted "1.8.0" "3.6.5" "/tmp/bin.whl" "3" cpu false None
           {| fs := {| files := ∅; writable := ∅ |}; trace := [] |} eq_refl).
Defined.

Lemma tag_pairs_lookup (repository : string) (tags : list string) (i : nat) (tag : string) :
  tags !! i = Some tag ->
  tag_pairs repository tags !! (2 * i) = Some "-t" /\
  tag_pairs repository tags !! (2 * i + 1) = Some (repository +:+ ":" +:+ tag).
Proof.
  revert i. induction tags as [|t ts IH]; intros i H; [discriminate|].
  destruct i as [|i].
  - injection H as ->. split; reflexivity.
  - replace (2 * S i) with (S (S (2 * i))) by lia. simpl in H |- *.
    apply IH, H.
Qed.

Lemma length_tag_pairs (repository : string) (tags : list string) :
  length (tag_pairs repository tags) = 2 * length tags.
Proof. induction tags as [|t ts IH]; simpl; [reflexivity|]. rewrite IH. lia. Qed.

(** What follows the tag pairs holds no "-t". *)
Lemma no_t_after_tag_pairs (fw pv bin : string) (proc : Processor) :
  count_occ String.string_dec
    ((if needs_binary fw then build_args pv bin else []) ++ ["-f"; dockerfile proc; "."])
    "-t" = 0.
Proof.
  apply count_occ_not_In. unfold build_args.
  destruct (needs_binary fw), proc; simpl; intuition discriminate.
Qed.

Lemma parse_args_tags (cl : CommandLine) (args : Args) :
  parse_args cl = Some args ->
  final_image_tags args = default [] (cl_final_image_tags cl) /\
  final_image_repository args
    = default "preprod-tensorflow" (cl_final_image_repository cl).
Proof.
  unfold parse_args.
  destruct (if String.eqb (cl_processor_type cl) "cpu" then _ else _);
    [|discriminate].
  destruct (cl_final_image_tags cl) as [[|t ts]|]; try discriminate;
    intros [= <-]; split; reflexivity.
Qed.

(** C7: when --final-image-tags carries a non-empty list of tags and the
    command line parses, those are the tags [main] passes on, and the final
    build command is the engine, "build", then one "-t", "repository:tag"
    pair per tag in the order given: the pair of the i-th tag sits at
    positions 2+2i and 3+2i, "-t" occurs exactly as often as there are tags,
    and this is the command the final build is called with. *)
Theorem explicit_tags_one_pair_each
    (env : Env) (cl : CommandLine) (args : Args) (t : string) (ts : list string)
    (bin : option string) (final_dir : string) (w : World) :
  cl_final_image_tags cl = Some (t :: ts) ->
  parse_args cl = Some args ->
  let tags := t :: ts in
  let repo := final_image_repository args in
  let cmd := final_command_list (docker_of args) repo tags (framework_version args)
               (python_version args) (processor_type args) (default "" bin) in
  tags_of args w = (inr tags, w) /\
  (exists rest, cmd = [docker_of args; "build"] ++ tag_pairs repo tags ++ rest /\
                count_occ String.string_dec rest "-t" = 0) /\
  (forall i tag, tags !! i = Some tag ->
     cmd !! (2 + 2 * i) = Some "-t" /\
     cmd !! (3 + 2 * i) = Some (repo +:+ ":" +:+ tag)) /\
  count_occ String.string_dec cmd "-t" = length tags /\
  trace (snd (build_final_image env (docker_of args) repo tags (framework_version args)
                (python_version args) (processor_type args) bin final_dir w))
    = trace w ++ [Call cmd final_dir].
Proof.
  intros Hcl Hparse tags repo cmd.
  assert (Htags : final_image_tags args = t :: ts).
  { destruct (parse_args_tags cl args Hparse) as [H _]. now rewrite Hcl in H. }
  assert (Hshape : cmd = [docker_of args; "build"] ++ tag_pairs repo tags
            ++ (if needs_binary (framework_version args)
                then build_args (python_version args) (default "" bin) else [])
            ++ ["-f"; dockerfile (processor_type args); "."])
    by apply final_command_list_shape.
  split; [|split; [|split; [|split]]].
  - unfold tags_of. rewrite Htags. reflexivity.
  - eexists. split; [exact Hshape|]. apply no_t_after_tag_pairs.
  - intros i tag Hi. rewrite Hshape.
    destruct (tag_pairs_lookup repo tags i tag Hi) as [H1 H2].
    replace (3 + 2 * i) with (2 + (2 * i + 1)) by lia.
    split; [exact (lookup_app_l_Some _ _ _ _ H1) | exact (lookup_app_l_Some _ _ _ _ H2)].
  - rewrite Hshape, (count_occ_app _ [docker_of args; "build"]),
      (count_occ_app _ (tag_pairs repo tags)), count_t_tag_pairs, no_t_after_tag_pairs.
    destruct (docker_of_cases args) as [-> | ->]; simpl; lia.
  - unfold build_final_image, void, subprocess_call. fold cmd. simpl.
    destruct (subprocess env cmd final_dir (fs w)) as [[e|code] f]; reflexivity.
Qed.

Lemma explicit_tags_one_pair_each_witness :
  cl_final_image_tags Demo.cl_tags = Some ["latest"; "1.8.0-gpu"] /\
  parse_args Demo.cl_tags = Some Demo.args_tags /\
  final_command_list "nvidia-docker" "tf" ["latest"; "1.8.0-gpu"] "1.8.0"
    "3.6.5" gpu "bin.whl"
  = ["nvidia-docker"; "build"] ++ tag_pairs "tf" ["latest"; "1.8.0-gpu"]
      ++ ["--build-arg"; "py_version=3"; "--build-arg"; "framework_installable=bin.whl";
          "-f"; "Dockerfile.gpu"; "."] /\
  final_command_list "nvidia-docker" "tf" ["latest"; "1.8.0-gpu"] "1.8.0"
    "3.6.5" gpu "bin.whl" !! 4 = Some "-t" /\
  final_command_list "nvidia-docker" "tf" ["latest"; "1.8.0-gpu"] "1.8.0"
    "3.6.5" gpu "bin.whl" !! 5 = Some "tf:1.8.0-gpu".
Proof.
  split; [reflexivity|]. split; [reflexivity|]. split; [reflexivity|].
  exact (proj1 (proj2 (proj2
           (explicit_tags_one_pair_each Demo.env Demo.cl_tags Demo.args_tags "latest"
              ["1.8.0-gpu"] (Some "bin.whl") Demo.final_py3 Demo.world
              eq_refl eq_refl)))
           1 "1.8.0-gpu" eq_refl).
Defined.

Lemma build_arg_in_final_command (args : Args) (tags : list string) (bin : string) :
  In "--build-arg"
     (final_command_list (docker_of args) (final_image_repository args) tags
        (framework_version args) (python_version args) (processor_type args) bin)
  <-> needs_binary (framework_version args) = true.
Proof.
  rewrite final_command_list_shape.
  pose proof (build_arg_not_in_tag_pairs (final_image_repository args) tags) as Hp.
  split.
  - destruct (needs_binary (framework_version args)); [reflexivity|].
    intros H. exfalso.
    cbn [app] in H. destruct H as [H|[H|H]].
    + destruct (docker_of_cases args) as [E|E]; rewrite E in H; discriminate.
    + discriminate.
    + apply in_app_or in H as [H|H]; [tauto|].
      destruct (processor_type args); simpl in H; intuition discriminate.
  - intros ->. cbn [app]. right. right.
    apply in_or_app. right. left. reflexivity.
Qed.

(** C8: the final build command holds "--build-arg" exactly when the
    framework version is neither "1.4.1" nor "1.5.0", and then its build
    arguments are py_version and framework_installable, between the tag
    pairs and the Dockerfile option.  Run on the demo checkout, 1.8.0 with
    python 3.6.5, cpu, the local file /tmp/bin.whl and no explicit tags
    exits with 0, copies the file to bin.whl in the final directory and
    ends with a build tagged "1.8.0-cpu-py3" carrying py_version=3 and
    framework_installable=bin.whl; 1.4.1 fetches nothing and its final
    build has no build argument. *)
Theorem build_args_iff_binary_needed (args : Args) (tags : list string) (bin : string) :
  let cmd := final_command_list (docker_of args) (final_image_repository args) tags
               (framework_version args) (python_version args) (processor_type args) bin in
  (In "--build-arg" cmd
     <-> ~ (framework_version args = "1.4.1" \/ framework_version args = "1.5.0")) /\
  cmd = [docker_of args; "build"] ++ tag_pairs (final_image_repository args) tags
          ++ (if needs_binary (framework_version args)
              then ["--build-arg"; "py_version=" +:+ py_version_arg (python_version args);
                    "--build-arg"; "framework_installable=" +:+ bin]
              else [])
          ++ ["-f"; dockerfile (processor_type args); "."] /\
  main Demo.env Demo.cl_180 Demo.world
    = (0%Z, snd (main Demo.env Demo.cl_180 Demo.world)) /\
  trace (snd (main Demo.env Demo.cl_180 Demo.world))
    = [Print "Getting binary...";
       CopyFile "/tmp/bin.whl" "/repo/ci/build/../../docker/1.8.0/final/py3/bin.whl";
       Print "Building base image...";
       Call ["docker"; "build"; "-t"; "tensorflow-base:1.8.0-cpu-py3"; "-f";
             "Dockerfile.cpu"; "."]
            "/repo/ci/build/../../docker/1.8.0/base";
       Print "Building final image...";
       Call ["git"; "clone"; "https://github.com/aws/sagemaker-tensorflow-extensions.git"]
            "/repo/ci/build/../../docker/1.8.0/final/py3";
       Call ["python"; "setup.py"; "sdist"] "/repo/ci/build/../..";
       CopyFile "/repo/ci/build/../../dist/sagemaker_tensorflow_container-1.0.0.tar.gz"
         "/repo/ci/build/../../docker/1.8.0/final/py3/sagemaker_tensorflow_container-1.0.0.tar.gz";
       Call ["docker"; "build"; "-t"; "preprod-tensorflow:1.8.0-cpu-py3";
             "--build-arg"; "py_version=3";
             "--build-arg"; "framework_installable=bin.whl";
             "-f"; "Dockerfile.cpu"; "."]
            "/repo/ci/build/../../docker/1.8.0/final/py3"] /\
  files (fs (snd (main Demo.env Demo.cl_180 Demo.world)))
    !! "/repo/ci/build/../../docker/1.8.0/final/py3/bin.whl" = Some Demo.local_wheel /\
  trace (snd (main Demo.env Demo.cl_141 Demo.world))
    = [Print "Building base image...";
       Call ["docker"; "build"; "-t"; "tensorflow-base:1.4.1-cpu-py2"; "-f";
             "Dockerfile.cpu"; "."]
            "/repo/ci/build/../../docker/1.4.1/base";
       Print "Building final image...";
       Call ["git"; "clone"; "https://github.com/aws/sagemaker-tensorflow-extensions.git"]
            "/repo/ci/build/../../docker/1.4.1/final/py2";
       Call ["python"; "setup.py"; "sdist"] "/repo/ci/build/../..";
       CopyFile "/repo/ci/build/../../dist/sagemaker_tensorflow_container-1.0.0.tar.gz"
         "/repo/ci/build/../../docker/1.4.1/final/py2/sagemaker_tensorflow_container-1.0.0.tar.gz";
       Call ["docker"; "build"; "-t"; "preprod-tensorflow:1.4.1-cpu-py2";
             "-f"; "Dockerfile.cpu"; "."]
            "/repo/ci/build/../../docker/1.4.1/final/py2"].
Proof.
  intros cmd. split; [|split; [|repeat split; vm_compute; reflexivity]].
  - unfold cmd. rewrite build_arg_in_final_command, <- needs_binary_false_iff.
    destruct (needs_binary (framework_version args)); split; congruence.
  - apply final_command_list_shape.
Qed.

(** ** Pieces of a path *)





Lemma split_pieces_lack_sep (sep : ascii) (s : string) :
  Forall (fun piece => PyStr.lacks sep piece = true) (PyStr.split sep s).
Proof.
  induction s as [|c s IH]; simpl.
  - repeat constructor.
  - destruct (Ascii.eqb c sep) eqn:Ec; [constructor; [reflexivity|exact IH]|].
    destruct (PyStr.split sep s) as [|h t]; [repeat constructor; simpl; now rewrite Ec|].
    inversion IH as [|? ? Hh Ht]; subst. constructor; [|exact Ht].
    simpl. now rewrite Ec, Hh.
Qed.

Lemma last_piece_lacks_sep (sep : ascii) (s : string) :
  PyStr.lacks sep (PyStr.last_piece (PyStr.split sep s)) = true.
Proof.
  unfold PyStr.last_piece.
  pose proof (split_pieces_lack_sep sep s) as H.
  induction H as [|x l Hx Hl IH]; [reflexivity|].
  destruct l; [exact Hx | exact IH].
Qed.


(** ** Getting the binary *)

(** C3: for "1.4.1" and "1.5.0" the fetch of lines 34-43 does nothing
    whatever [binary_path] is: it returns with [binary_filename] unbound and
    leaves the world as it was, so no copy, no GET and no write happens, and
    the whole build does not depend on [binary_path]. *)
Theorem legacy_versions_fetch_nothing
    (env : Env) (fw pv bp bp' dest repo docker root : string) (proc : Processor)
    (tags : list string) (w : World) :
  fw = "1.4.1" \/ fw = "1.5.0" ->
  get_binary env fw bp dest w = (inr None, w) /\
  build_docker_image env fw pv proc bp repo tags docker root w
    = build_docker_image env fw pv proc bp' repo tags docker root w.
Proof.
  intros [-> | ->]; split; reflexivity.
Qed.

Lemma legacy_versions_fetch_nothing_witness :
  ("1.4.1" = "1.4.1" \/ "1.4.1" = "1.5.0") /\
  get_binary Demo.env "1.4.1" "/tmp/bin.whl" Demo.final_py3 Demo.world
    = (inr None, Demo.world).
Proof.
  split; [left; reflexivity|].
  exact (proj1 (legacy_versions_fetch_nothing Demo.env "1.4.1" "2.7.4" "/tmp/bin.whl"
                  "None" Demo.final_py3 "preprod-tensorflow" "docker" Demo.root cpu
                  ["1.4.1-cpu-py2"] Demo.world (or_introl eq_refl))).
Defined.


Lemma isfile_false (p : string) (w : World) :
  files (fs w) !! p = None -> isfile p w = (inr false, w).
Proof.
  intros H. unfold isfile. rewrite bool_decide_eq_false_2; [reflexivity|].
  rewrite H. intros [? ?]. discriminate.
Qed.


(** [shutil.copyfile] of a file onto itself. *)
Lemma copyfile_refuses (env : Env) (src dst : string) (w : World) :
  samefile env (fs w) src dst = true ->
  copyfile env src dst w
  = (inl (SameFileError src dst), emit (CopyFile src dst) w).
Proof. intros H. unfold copyfile. cbn [emit fs]. now rewrite H. Qed.





(** Lines 34-35 and 39-43 when [binary_path] is not a file. *)
Lemma get_binary_remote (env : Env) (fw bp dest : string) (w : World) :
  needs_binary fw = true ->
  files (fs w) !! bp = None ->
  get_binary env fw bp dest w
  = let name := PyStr.last_piece (PyStr.split "/" bp) in
    let w1 := emit (HttpGet bp) (emit (Print "Getting binary...") w) in
    match http env bp with
    | inl e => (inl e, w1)
    | inr response =>
        match write_file (OsPath.join dest [name]) (content response) w1 with
        | (inr _, w2) => (inr (Some name), w2)
        | (inl e, w2) => (inl e, w2)
        end
    end.
Proof.
  intros Hfw Hsrc. unfold get_binary. rewrite Hfw.
  cbv [bind print fetch_binary].
  rewrite (isfile_false bp (emit (Print "Getting binary...") w) Hsrc).
  unfold requests_get. destruct (http env bp) as [e|response]; [reflexivity|].
  destruct (write_file _ _ _) as [[e|u] w2]; reflexivity.
Qed.



(** ** The sdist archive *)

Lemma calls_app (t1 t2 : list Event) : calls (t1 ++ t2) = calls t1 ++ calls t2.
Proof.
  induction t1 as [|e t1 IH]; [reflexivity|].
  destruct e; simpl; now rewrite IH.
Qed.

(** Getting the binary starts no child process. *)
Lemma get_binary_calls (env : Env) (fw bp dest : string) (w : World) :
  calls (trace (snd (get_binary env fw bp dest w))) = calls (trace w).
Proof.
  unfold get_binary. destruct (needs_binary fw); [|reflexivity].
  cbv [bind print fetch_binary isfile].
  destruct (bool_decide _).
  - unfold copyfile. destruct (samefile _ _ _); cbn;
      [now rewrite !calls_app, !app_nil_r|].
    destruct (files _ !! bp); cbn; [|now rewrite !calls_app, !app_nil_r].
    destruct (bool_decide _); cbn; now rewrite !calls_app, !app_nil_r.
  - unfold requests_get. destruct (http env bp); cbn;
      [now rewrite !calls_app, !app_nil_r|].
    unfold write_file. cbn. destruct (bool_decide _); cbn;
      now rewrite !calls_app, !app_nil_r.
Qed.

Lemma void_call_trace (env : Env) (args : list string) (cwd : string) (w : World) :
  trace (snd (void (subprocess_call env args cwd) w)) = trace w ++ [Call args cwd].
Proof.
  unfold void, subprocess_call.
  destruct (subprocess env args cwd _) as [[e|code] f]; reflexivity.
Qed.

(** The trace of a prefix that ran to its end: what the fetch logged, then
    the base build, the clone and the sdist step. *)
Lemma build_prefix_trace (env : Env) (fw pv bp docker root : string) (proc : Processor)
    (w w1 : World) (bin : option string) :
  build_prefix env fw pv proc bp docker root w = (inr bin, w1) ->
  trace w1
  = trace (snd (get_binary env fw bp (final_docker_path root fw pv) w))
      ++ [Print "Building base image...";
          Call (base_command_list docker fw proc pv) (base_docker_path root fw);
          Print "Building final image...";
          Call ["git"; "clone"; extensions_url] (final_docker_path root fw pv);
          Call ["python"; "setup.py"; "sdist"] root].
Proof.
  unfold build_prefix, build_base_image, stage_sources.
  cbv [bind print ret].
  destruct (get_binary _ _ _ _ w) as [[e|b] w0]; [discriminate|].
  cbn [snd].
  pose proof (void_call_trace env (base_command_list docker fw proc pv)
                (base_docker_path root fw) (emit (Print "Building base image...") w0)) as T1.
  destruct (void _ _) as [[e|[]] w2]; [discriminate|]. cbn [snd] in T1.
  pose proof (void_call_trace env ["git"; "clone"; extensions_url]
                (final_docker_path root fw pv)
                (emit (Print "Building final image...") w2)) as T2.
  destruct (void _ _) as [[e|[]] w3]; [discriminate|]. cbn [snd] in T2.
  pose proof (void_call_trace env ["python"; "setup.py"; "sdist"] root w3) as T3.
  destruct (void _ _) as [[e|[]] w4]; [discriminate|]. cbn [snd] in T3.
  intros [= _ <-]. rewrite T3, T2. cbn [emit trace]. rewrite T1. cbn [emit trace].
  now rewrite <- !app_assoc.
Qed.

(** C9: line 59 takes element 0 of the glob without looking at its length.
    Whenever the steps before it ran to their end and the glob of
    <root>/dist/sagemaker_tensorflow_container-*.tar.gz then finds nothing,
    [build_docker_image] ends with IndexError in the world the sdist step
    left: the last thing done is the sdist call, the only child processes
    were the base build, the clone and the sdist step, and the final build
    is not among them. *)
Theorem empty_glob_raises_IndexError
    (env : Env) (fw pv bp repo docker root : string) (proc : Processor)
    (tags : list string) (w w1 : World) (bin : option string) :
  build_prefix env fw pv proc bp docker root w = (inr bin, w1) ->
  glob env (fs w1) (sdist_pattern root) = [] ->
  build_docker_image env fw pv proc bp repo tags docker root w = (inl IndexError, w1) /\
  (exists t, trace w1 = t ++ [Call ["python"; "setup.py"; "sdist"] root]) /\
  calls (trace w1)
    = calls (trace w)
        ++ [(base_command_list docker fw proc pv, base_docker_path root fw);
            (["git"; "clone"; extensions_url], final_docker_path root fw pv);
            (["python"; "setup.py"; "sdist"], root)].
Proof.
  intros Hprefix Hglob. split; [|split].
  - unfold build_docker_image, bind. rewrite Hprefix.
    unfold copy_sdist, bind, glob_glob. rewrite Hglob. reflexivity.
  - rewrite (build_prefix_trace _ _ _ _ _ _ _ _ _ _ Hprefix).
    eexists (_ ++ [_; _; _; _]). rewrite <- app_assoc. reflexivity.
  - rewrite (build_prefix_trace _ _ _ _ _ _ _ _ _ _ Hprefix).
    rewrite calls_app, get_binary_calls. reflexivity.
Qed.

Lemma empty_glob_raises_IndexError_witness :
  build_prefix Demo.failing_env "1.4.1" "2.7.4" cpu "None" "docker" Demo.root Demo.world
    = (inr None,
       snd (build_prefix Demo.failing_env "1.4.1" "2.7.4" cpu "None" "docker" Demo.root
              Demo.world)) /\
  glob Demo.failing_env
    (fs (snd (build_prefix Demo.failing_env "1.4.1" "2.7.4" cpu "None" "docker" Demo.root
                Demo.world)))
    (sdist_pattern Demo.root) = [] /\
  build_docker_image Demo.failing_env "1.4.1" "2.7.4" cpu "None" "preprod-tensorflow"
    ["1.4.1-cpu-py2"] "docker" Demo.root Demo.world
  = (inl IndexError,
     snd (build_prefix Demo.failing_env "1.4.1" "2.7.4" cpu "None" "docker" Demo.root
            Demo.world)).
Proof.
  assert (H1 : build_prefix Demo.failing_env "1.4.1" "2.7.4" cpu "None" "docker"
                 Demo.root Demo.world
               = (inr None,
                  snd (build_prefix Demo.failing_env "1.4.1" "2.7.4" cpu "None" "docker"
                         Demo.root Demo.world)))
    by (vm_compute; reflexivity).
  assert (H2 : glob Demo.failing_env
                 (fs (snd (build_prefix Demo.failing_env "1.4.1" "2.7.4" cpu "None"
                             "docker" Demo.root Demo.world)))
                 (sdist_pattern Demo.root) = [])
    by (vm_compute; reflexivity).
  split; [exact H1|]. split; [exact H2|].
  exact (proj1 (empty_glob_raises_IndexError Demo.failing_env "1.4.1" "2.7.4" "None"
                  "preprod-tensorflow" "docker" Demo.root cpu ["1.4.1-cpu-py2"]
                  Demo.world _ None H1 H2)).
Defined.

(** ** Exit codes *)

Lemma bind_ext {A B} (m1 m2 : M A) (k1 k2 : A -> M B) (w : World) :
  m1 w = m2 w -> (forall a w', k1 a w' = k2 a w') -> bind m1 k1 w = bind m2 k2 w.
Proof.
  intros Hm Hk. unfold bind. rewrite Hm.
  destruct (m2 w) as [[e|a] w']; [reflexivity | apply Hk].
Qed.

(** A call whose exit code is dropped behaves the same under any exit
    code. *)
Lemma void_call_exit_code (f : list string -> string -> Z) (env : Env)
    (args : list string) (cwd : string) (w : World) :
  void (subprocess_call (with_exit_codes f env) args cwd) w
  = void (subprocess_call env args cwd) w.
Proof.
  unfold void, subprocess_call. cbn [with_exit_codes subprocess].
  destruct (subprocess env args cwd _) as [[e|code] f']; reflexivity.
Qed.

Lemma build_docker_image_exit_codes (f : list string -> string -> Z) (env : Env)
    (fw pv bp repo docker root : string) (proc : Processor) (tags : list string)
    (w : World) :
  build_docker_image (with_exit_codes f env) fw pv proc bp repo tags docker root w
  = build_docker_image env fw pv proc bp repo tags docker root w.
Proof.
  unfold build_docker_image, build_prefix, build_base_image, stage_sources,
    build_final_image.
  repeat first [ apply void_call_exit_code
               | reflexivity
               | apply bind_ext; [|intros] ].
Qed.

(** C2, as the code has it: the exit codes of the child processes are
    dropped, so a run in which they are replaced by any other codes is the
    same run with the same exit status; the status is 2 from the parser, 0
    when [main] returns and 1 when an exception escapes it.  On the demo
    checkout the build still exits with 0 when every command reports 1 but
    does its work. *)
Theorem exit_codes_are_discarded
    (f : list string -> string -> Z) (env : Env) (cl : CommandLine) (w : World) :
  main (with_exit_codes f env) cl w = main env cl w /\
  fst (main env cl w)
    = match parse_args cl with
      | None => 2%Z
      | Some args =>
          match fst (main_body env args w) with
          | inr _ => 0%Z
          | inl _ => 1%Z
          end
      end /\
  fst (main (with_exit_codes (fun _ _ => 1%Z) Demo.env) Demo.cl_180 Demo.world) = 0%Z.
Proof.
  split; [|split].
  - unfold main. destruct (parse_args cl) as [args|]; [|reflexivity].
    replace (main_body (with_exit_codes f env) args w) with (main_body env args w);
      [reflexivity|].
    unfold main_body. symmetry. apply bind_ext; [reflexivity|].
    intros tags w'. apply build_docker_image_exit_codes.
  - unfold main. destruct (parse_args cl) as [args|]; [|reflexivity].
    destruct (main_body env args w) as [[e|u] w']; reflexivity.
  - vm_compute. reflexivity.
Qed.

(** C2 as the specification words it fails: with 1.4.1 on the demo checkout,
    when the packaging step exits with 1 and leaves no archive, parsing
    succeeds and the process ends with status 1, from the IndexError of
    line 59. *)
Lemma failed_packaging_exits_nonzero :
  (exists args, parse_args Demo.cl_141 = Some args /\
                fst (main_body Demo.failing_env args Demo.world) = inl IndexError) /\
  fst (main Demo.failing_env Demo.cl_141 Demo.world) = 1%Z /\
  fst (main Demo.failing_env Demo.cl_141 Demo.world) <> 0%Z.
Proof.
  split; [eexists; split; [reflexivity | vm_compute; reflexivity]|].
  split; [vm_compute; reflexivity|]. vm_compute. discriminate.
Qed.

(** ** Directory layout *)

Lemma string_app_assoc (a b c : string) : (a +:+ b) +:+ c = a +:+ b +:+ c.
Proof.
  induction a as [|x a IH]; [reflexivity|].
  change (String x ((a +:+ b) +:+ c) = String x (a +:+ b +:+ c)). now rewrite IH.
Qed.

Lemma endswith_sep_app (a b : string) :
  b <> "" -> PyStr.endswith_sep (a +:+ b) = PyStr.endswith_sep b.
Proof.
  intros Hb. induction a as [|x a IH]; [reflexivity|].
  simpl. rewrite <- IH. destruct (a +:+ b) eqn:E; [|reflexivity].
  destruct a; simpl in E; [contradiction | discriminate].
Qed.

Lemma lacks_sep_no_trailing (s : string) :
  PyStr.lacks "/" s = true -> PyStr.endswith_sep s = false.
Proof.
  induction s as [|c s IH]; [reflexivity|]. simpl. intros H.
  apply andb_prop in H as [Hc Hs]. apply negb_true_iff in Hc.
  destruct s; [exact Hc | apply IH, Hs].
Qed.

Lemma lacks_sep_no_leading (s : string) :
  PyStr.lacks "/" s = true -> PyStr.startswith_sep s = false.
Proof.
  destruct s as [|c s]; [reflexivity|]. simpl. intros H.
  apply andb_prop in H as [Hc _]. now apply negb_true_iff in Hc.
Qed.

Lemma eqb_app_nonempty (a b : string) : b <> "" -> String.eqb (a +:+ b) "" = false.
Proof.
  intros Hb. apply String.eqb_neq. destruct a; simpl; [exact Hb | discriminate].
Qed.

(** A relative component after a non-empty path without trailing separator
    is appended behind one separator. *)
Lemma join2_relative (path b : string) :
  path <> "" -> PyStr.endswith_sep path = false -> PyStr.startswith_sep b = false ->
  OsPath.join2 path b = path +:+ "/" +:+ b.
Proof.
  intros Hp He Hb. unfold OsPath.join2. rewrite Hb, He.
  apply String.eqb_neq in Hp. now rewrite Hp.
Qed.

(** What [join2] gives after a non-empty component without trailing
    separator can be extended in the same way. *)
Lemma join2_relative_again (path b c : string) :
  b <> "" -> PyStr.endswith_sep b = false -> PyStr.startswith_sep c = false ->
  OsPath.join2 (path +:+ "/" +:+ b) c = (path +:+ "/" +:+ b) +:+ "/" +:+ c.
Proof.
  intros Hb Hl Hc. apply join2_relative; trivial.
  - destruct path; discriminate.
  - change (path +:+ "/" +:+ b) with (path +:+ String "/" b).
    rewrite endswith_sep_app by discriminate.
    destruct b as [|x b]; [contradiction | exact Hl].
Qed.

(** X1: for a project root that is not empty and does not end with '/', and
    a framework version that is not empty and holds no '/', the two
    directories are <root>/docker/<version>/base and
    <root>/docker/<version>/final/<py tag>, whatever the python version. *)
Theorem docker_paths_layout (root fw pv : string) :
  root <> "" -> PyStr.endswith_sep root = false ->
  fw <> "" -> PyStr.lacks "/" fw = true ->
  base_docker_path root fw = root +:+ "/docker/" +:+ fw +:+ "/base" /\
  final_docker_path root fw pv = root +:+ "/docker/" +:+ fw +:+ "/final/" +:+ py_v pv.
Proof.
  intros Hr He Hf Hl.
  pose proof (lacks_sep_no_leading fw Hl) as Hs.
  pose proof (lacks_sep_no_trailing fw Hl) as Ht.
  unfold base_docker_path, final_docker_path, OsPath.join. cbn [fold_left].
  rewrite (join2_relative root "docker") by trivial.
  rewrite (join2_relative_again root "docker" fw)
    by first [assumption | reflexivity | discriminate].
  rewrite !(join2_relative_again _ fw) by first [assumption | reflexivity].
  rewrite (join2_relative_again _ "final")
    by first [assumption | reflexivity | discriminate].
  rewrite !string_app_assoc. split; reflexivity.
Qed.

Lemma docker_paths_layout_witness :
  Demo.root <> "" /\ PyStr.endswith_sep Demo.root = false /\
  "1.8.0" <> "" /\ PyStr.lacks "/" "1.8.0" = true /\
  final_docker_path Demo.root "1.8.0" "3.6.5"
    = Demo.root +:+ "/docker/" +:+ "1.8.0" +:+ "/final/" +:+ py_v "3.6.5".
Proof.
  assert (H1 : Demo.root <> "") by discriminate.
  assert (H3 : "1.8.0" <> "") by discriminate.
  split; [exact H1|]. split; [reflexivity|]. split; [exact H3|]. split; [reflexivity|].
  exact (proj2 (docker_paths_layout Demo.root "1.8.0" "3.6.5" H1 eq_refl H3 eq_refl)).
Defined.

(** X2: a framework version that starts with '/' is taken by
    [os.path.join] as an absolute path, so both directories lose the
    project root: they are that path joined with "base", and with "final"
    and the py tag. *)
Theorem absolute_version_drops_root (root fw pv : string) :
  PyStr.startswith_sep fw = true ->
  base_docker_path root fw = OsPath.join fw ["base"] /\
  final_docker_path root fw pv = OsPath.join fw ["final"; py_v pv].
Proof.
  intros H.
  assert (E : forall p, OsPath.join2 p fw = fw)
    by (intros p; unfold OsPath.join2; now rewrite H).
  unfold base_docker_path, final_docker_path, OsPath.join.
  cbn [fold_left]. rewrite E. split; reflexivity.
Qed.

Lemma absolute_version_drops_root_witness :
  PyStr.startswith_sep "/opt/tf" = true /\
  base_docker_path Demo.root "/opt/tf" = "/opt/tf/base" /\
  final_docker_path Demo.root "/opt/tf" "3.6.5" = "/opt/tf/final/py3".
Proof.
  split; [reflexivity|].
  exact (absolute_version_drops_root Demo.root "/opt/tf" "3.6.5" eq_refl).
Defined.

(** ** The tag, for every python version *)

Lemma first_piece_decompose (sep : ascii) (s : string) :
  exists rest,
    s = PyStr.first_piece (PyStr.split sep s) +:+ rest /\
    (rest = "" \/ exists r, rest = String sep r) /\
    PyStr.lacks sep (PyStr.first_piece (PyStr.split sep s)) = true.
Proof.
  induction s as [|c s (rest & Hs & Hrest & Hl)]; simpl.
  - exists "". auto.
  - destruct (Ascii.eqb c sep) eqn:Ec.
    + apply Ascii.eqb_eq in Ec as ->. exists (String sep s). simpl. eauto.
    + destruct (PyStr.split sep s) as [|h t] eqn:E; [now apply split_not_nil in E|].
      exists rest. simpl in *. rewrite Ec, Hl. rewrite Hs at 1. auto.
Qed.

(** X3: for every python version the tag is "py" followed by the longest
    prefix of the version that holds no '.': the version is that prefix
    followed by nothing or by a '.', and the tag itself holds no '.'. *)
Theorem py_v_longest_dotless_prefix (pv : string) :
  exists major rest,
    pv = major +:+ rest /\
    (rest = "" \/ exists r, rest = String "." r) /\
    PyStr.lacks "." major = true /\
    py_v pv = "py" +:+ major /\
    PyStr.lacks "." (py_v pv) = true.
Proof.
  destruct (first_piece_decompose "." pv) as (rest & Hs & Hrest & Hl).
  exists (PyStr.first_piece (PyStr.split "." pv)), rest.
  repeat split; trivial.
Qed.

(** ** The parser *)

(** X4: when the value given for the processor is neither "cpu" nor "gpu",
    or --final-image-tags is given without a tag, the parser turns the
    command line down: the script exits with status 2 and has printed,
    fetched, written and started nothing. *)
Theorem parser_error_exit (env : Env) (cl : CommandLine) (w : World) :
  (cl_processor_type cl <> "cpu" /\ cl_processor_type cl <> "gpu")
  \/ cl_final_image_tags cl = Some [] ->
  main env cl w = (2%Z, w).
Proof.
  intros H. unfold main, parse_args.
  destruct (String.eqb (cl_processor_type cl) "cpu") eqn:Ecpu.
  - apply String.eqb_eq in Ecpu.
    destruct H as [[H _]|H]; [contradiction|]. now rewrite H.
  - destruct (String.eqb (cl_processor_type cl) "gpu") eqn:Egpu; [|reflexivity].
    apply String.eqb_eq in Egpu.
    destruct H as [[_ H]|H]; [contradiction|]. now rewrite H.
Qed.

Lemma parser_error_exit_witness :
  (("tpu" <> "cpu" /\ "tpu" <> "gpu") \/ Some ["latest"] = Some []) /\
  main Demo.env
    {| cl_framework_version := "1.8.0"; cl_python_version := "3.6.5";
       cl_processor_type := "tpu"; cl_binary_path := "/tmp/bin.whl";
       cl_nvidia_docker := false; cl_final_image_repository := None;
       cl_final_image_tags := Some ["latest"] |} Demo.world
  = (2%Z, Demo.world).
Proof.
  assert (H : ("tpu" <> "cpu" /\ "tpu" <> "gpu") \/ Some ["latest"] = Some [])
    by (left; split; discriminate).
  split; [exact H|].
  exact (parser_error_exit Demo.env
           {| cl_framework_version := "1.8.0"; cl_python_version := "3.6.5";
              cl_processor_type := "tpu"; cl_binary_path := "/tmp/bin.whl";
              cl_nvidia_docker := false; cl_final_image_repository := None;
              cl_final_image_tags := Some ["latest"] |} Demo.world H).
Defined.

(** X5: with --final-image-tags omitted and an empty python version, line 93
    indexes the empty string: the script ends with IndexError and status 1
    before it has printed, fetched or started anything. *)
Theorem empty_python_version_no_tags
    (env : Env) (fw bp : string) (proc : Processor) (nv : bool) (repo : option string)
    (w : World) :
  main env {| cl_framework_version := fw; cl_python_version := "";
              cl_processor_type := processor_str proc; cl_binary_path := bp;
              cl_nvidia_docker := nv; cl_final_image_repository := repo;
              cl_final_image_tags := None |} w
  = (1%Z, w).
Proof. destruct proc; reflexivity. Qed.

(** ** Exceptions stop the build *)

(** An exception of the fetch is the result of the whole build. *)
Lemma get_binary_error_stops
    (env : Env) (fw pv bp repo docker root : string) (proc : Processor)
    (tags : list string) (w w' : World) (e : exn) :
  get_binary env fw bp (final_docker_path root fw pv) w = (inl e, w') ->
  build_docker_image env fw pv proc bp repo tags docker root w = (inl e, w').
Proof.
  intros H. unfold build_docker_image, build_prefix, bind. now rewrite H.
Qed.

(** X6: for a version that ships a binary, when [binary_path] is not a file
    and the request for it gets no response, the exception of
    [requests.get] ends the build right there: after the progress line and
    the request nothing is written and no child process is started. *)
Theorem failed_download_stops_build
    (env : Env) (fw pv bp repo docker root : string) (proc : Processor)
    (tags : list string) (w : World) (e : exn) :
  needs_binary fw = true ->
  files (fs w) !! bp = None ->
  http env bp = inl e ->
  let r := build_docker_image env fw pv proc bp repo tags docker root w in
  fst r = inl e /\
  fs (snd r) = fs w /\
  trace (snd r) = trace w ++ [Print "Getting binary..."; HttpGet bp] /\
  calls (trace (snd r)) = calls (trace w).
Proof.
  intros Hfw Hsrc Hget r.
  assert (Hr : r = (inl e, emit (HttpGet bp) (emit (Print "Getting binary...") w))).
  { apply get_binary_error_stops.
    rewrite (get_binary_remote env fw bp _ w Hfw Hsrc), Hget. reflexivity. }
  rewrite Hr. cbn. repeat split.
  - now rewrite <- app_assoc.
  - rewrite !calls_app. cbn. now rewrite !app_nil_r.
Qed.

Lemma failed_download_stops_build_witness :
  needs_binary "1.8.0" = true /\
  files (fs Demo.world) !! "None" = None /\
  http Demo.env "None" = inl (RequestException "None") /\
  fst (build_docker_image Demo.env "1.8.0" "3.6.5" cpu "None" "preprod-tensorflow"
         ["1.8.0-cpu-py3"] "docker" Demo.root Demo.world)
  = inl (RequestException "None").
Proof.
  assert (H1 : needs_binary "1.8.0" = true) by reflexivity.
  assert (H2 : files (fs Demo.world) !! "None" = None) by (vm_compute; reflexivity).
  assert (H3 : http Demo.env "None" = inl (RequestException "None")) by reflexivity.
  split; [exact H1|]. split; [exact H2|]. split; [exact H3|].
  exact (proj1 (failed_download_stops_build Demo.env "1.8.0" "3.6.5" "None"
                  "preprod-tensorflow" "docker" Demo.root cpu ["1.8.0-cpu-py3"]
                  Demo.world _ H1 H2 H3)).
Defined.



(** X8: exit codes are dropped, but a command that cannot be started is not:
    when the fetch is through and the engine of the base build raises on
    start, the build ends with that exception right after the attempt, so
    the clone, the packaging and the final build are not started. *)
Theorem engine_start_failure_stops_build
    (env : Env) (fw pv bp repo docker root : string) (proc : Processor)
    (tags : list string) (w w0 : World) (bin : option string) (e : exn) (f : FS) :
  get_binary env fw bp (final_docker_path root fw pv) w = (inr bin, w0) ->
  subprocess env (base_command_list docker fw proc pv) (base_docker_path root fw) (fs w0)
    = (inl e, f) ->
  let r := build_docker_image env fw pv proc bp repo tags docker root w in
  fst r = inl e /\
  fs (snd r) = f /\
  trace (snd r)
    = trace w0 ++ [Print "Building base image...";
                   Call (base_command_list docker fw proc pv) (base_docker_path root fw)] /\
  calls (trace (snd r))
    = calls (trace w)
        ++ [(base_command_list docker fw proc pv, base_docker_path root fw)].
Proof.
  intros Hg Hs r.
  assert (Hc : calls (trace w0) = calls (trace w)).
  { pose proof (get_binary_calls env fw bp (final_docker_path root fw pv) w) as H.
    now rewrite Hg in H. }
  subst r. unfold build_docker_image, build_prefix, build_base_image.
  cbv [bind print void subprocess_call]. rewrite Hg. cbn [emit fs trace].
  rewrite Hs. cbn. repeat split.
  - now rewrite <- app_assoc.
  - rewrite !calls_app, Hc. cbn. now rewrite app_nil_r.
Qed.

Lemma engine_start_failure_stops_build_witness :
  get_binary no_engine_env "1.4.1" "None" (final_docker_path Demo.root "1.4.1" "2.7.4")
    Demo.world = (inr None, Demo.world) /\
  subprocess no_engine_env (base_command_list "docker" "1.4.1" cpu "2.7.4")
    (base_docker_path Demo.root "1.4.1") (fs Demo.world)
    = (inl (OSError "docker"), fs Demo.world) /\
  fst (build_docker_image no_engine_env "1.4.1" "2.7.4" cpu "None" "preprod-tensorflow"
         ["1.4.1-cpu-py2"] "docker" Demo.root Demo.world)
  = inl (OSError "docker").
Proof.
  assert (H1 : get_binary no_engine_env "1.4.1" "None"
                 (final_docker_path Demo.root "1.4.1" "2.7.4") Demo.world
               = (inr None, Demo.world)) by reflexivity.
  assert (H2 : subprocess no_engine_env (base_command_list "docker" "1.4.1" cpu "2.7.4")
                 (base_docker_path Demo.root "1.4.1") (fs Demo.world)
               = (inl (OSError "docker"), fs Demo.world)) by reflexivity.
  split; [exact H1|]. split; [exact H2|].
  exact (proj1 (engine_start_failure_stops_build no_engine_env "1.4.1" "2.7.4" "None"
                  "preprod-tensorflow" "docker" Demo.root cpu ["1.4.1-cpu-py2"]
                  Demo.world Demo.world None _ _ H1 H2)).
Defined.

(** ** The child processes of a build *)

Lemma void_call_calls (env : Env) (args : list string) (cwd : string) (w : World) :
  calls (trace (snd (void (subprocess_call env args cwd) w)))
  = calls (trace w) ++ [(args, cwd)].
Proof. rewrite void_call_trace, calls_app. reflexivity. Qed.

(** Copying the archive starts no child process. *)
Lemma copy_sdist_calls (env : Env) (root final : string) (w : World) :
  calls (trace (snd (copy_sdist env root final w))) = calls (trace w).
Proof.
  unfold copy_sdist. cbv [bind glob_glob].
  destruct (glob env (fs w) (sdist_pattern root)) as [|tar others]; [reflexivity|].
  cbn [list_getitem0 ret]. unfold copyfile.
  destruct (samefile _ _ _); cbn; [now rewrite !calls_app, !app_nil_r|].
  destruct (files _ !! tar); cbn; [|now rewrite !calls_app, !app_nil_r].
  destruct (bool_decide _); cbn; now rewrite !calls_app, !app_nil_r.
Qed.

(** The calls of a build are an initial part of the four planned ones. *)
Lemma build_calls_prefix
    (env : Env) (fw pv bp repo docker root : string) (proc : Processor)
    (tags : list string) (w : World) :
  let r := build_docker_image env fw pv proc bp repo tags docker root w in
  let bin := match fst (get_binary env fw bp (final_docker_path root fw pv) w) with
             | inr b => b
             | inl _ => None
             end in
  exists n,
    n <= 4 /\
    calls (trace (snd r))
      = calls (trace w) ++ take n (planned_calls docker repo tags fw pv proc root bin) /\
    (n = 4 \/ exists e, fst r = inl e).
Proof.
  intros r bin. subst r bin.
  unfold build_docker_image, build_prefix, build_base_image, stage_sources,
    build_final_image, planned_calls.
  cbv [bind print ret].
  pose proof (get_binary_calls env fw bp (final_docker_path root fw pv) w) as C0.
  destruct (get_binary _ _ _ _ w) as [[e|b] w0]; cbn [fst snd] in *.
  { exists 0. rewrite C0, app_nil_r. eauto with lia. }
  pose proof (void_call_calls env (base_command_list docker fw proc pv)
                (base_docker_path root fw) (emit (Print "Building base image...") w0)) as C1.
  destruct (void _ _) as [[e|[]] w1]; cbn [fst snd emit trace] in *;
    rewrite calls_app, app_nil_r, C0 in C1.
  { exists 1. rewrite C1. eauto with lia. }
  pose proof (void_call_calls env ["git"; "clone"; extensions_url]
                (final_docker_path root fw pv)
                (emit (Print "Building final image...") w1)) as C2.
  destruct (void _ _) as [[e|[]] w2]; cbn [fst snd emit trace] in *;
    rewrite calls_app, app_nil_r, C1 in C2.
  { exists 2. rewrite C2, <- app_assoc. eauto with lia. }
  pose proof (void_call_calls env ["python"; "setup.py"; "sdist"] root w2) as C3.
  destruct (void _ _) as [[e|[]] w3]; cbn [fst snd] in *; rewrite C2 in C3.
  { exists 3. rewrite C3, <- !app_assoc. eauto with lia. }
  pose proof (copy_sdist_calls env root (final_docker_path root fw pv) w3) as C4.
  destruct (copy_sdist _ _ _ w3) as [[e|[]] w4]; cbn [fst snd] in *; rewrite C3 in C4.
  { exists 3. rewrite C4, <- !app_assoc. eauto with lia. }
  exists 4. split; [lia|]. split; [|now left].
  rewrite void_call_calls, C4, <- !app_assoc. reflexivity.
Qed.

(** X9: whatever happens, the child processes a build has started are the
    first n of the base build, the clone, the packaging and the final
    build, in this order and each in its directory; a build that returns
    has started all four, and none is started twice or out of order. *)
Theorem child_processes_in_order
    (env : Env) (fw pv bp repo docker root : string) (proc : Processor)
    (tags : list string) (w : World) :
  let r := build_docker_image env fw pv proc bp repo tags docker root w in
  let bin := match fst (get_binary env fw bp (final_docker_path root fw pv) w) with
             | inr b => b
             | inl _ => None
             end in
  exists n,
    n <= 4 /\
    calls (trace (snd r))
      = calls (trace w) ++ take n (planned_calls docker repo tags fw pv proc root bin) /\
    (n = 4 \/ exists e, fst r = inl e).
Proof. apply build_calls_prefix. Qed.

(** ** The archive *)



(** ** What the script itself writes *)










(** ** The fetched file and its name *)

(** X12: whenever the fetch returns, [binary_filename] is bound exactly for
    the versions whose final command reads it; it is then the piece of
    [binary_path] after the last '/', holds no '/', and names a file that
    now exists directly under the final image directory, so the
    framework_installable build argument names a file of the build
    context. *)
Theorem binary_filename_names_fetched_file
    (env : Env) (fw bp dir : string) (w w' : World) (bin : option string) :
  get_binary env fw bp dir w = (inr bin, w') ->
  (is_Some bin <-> needs_binary fw = true) /\
  (forall name, bin = Some name ->
     name = PyStr.last_piece (PyStr.split "/" bp) /\
     PyStr.lacks "/" name = true /\
     is_Some (files (fs w') !! OsPath.join dir [name])).
Proof.
  unfold get_binary. destruct (needs_binary fw).
  - cbv [bind print fetch_binary isfile ret].
    destruct (bool_decide _).
    + unfold copyfile. destruct (samefile _ _ _); [discriminate|].
      destruct (files _ !! bp); [|discriminate].
      destruct (bool_decide _); [|discriminate].
      intros [= <- <-]. split; [split; eauto|].
      intros name [= <-]. split; [reflexivity|].
      split; [apply last_piece_lacks_sep|]. cbn. rewrite lookup_insert_eq. eauto.
    + unfold requests_get. destruct (http env bp); [discriminate|].
      unfold write_file. cbn. destruct (bool_decide _); [|discriminate].
      intros [= <- <-]. split; [split; eauto|].
      intros name [= <-]. split; [reflexivity|].
      split; [apply last_piece_lacks_sep|]. cbn. rewrite lookup_insert_eq. eauto.
  - intros [= <- <-]. split.
    + split; [intros [? ?]; discriminate | discriminate].
    + intros name. discriminate.
Qed.

Lemma binary_filename_names_fetched_file_witness :
  exists w',
    get_binary Demo.env "1.8.0" Demo.wheel_url Demo.final_py3 Demo.world
      = (inr (Some "tensorflow-1.8.0.whl"), w') /\
    is_Some (files (fs w') !! OsPath.join Demo.final_py3 ["tensorflow-1.8.0.whl"]).
Proof.
  exists (snd (get_binary Demo.env "1.8.0" Demo.wheel_url Demo.final_py3 Demo.world)).
  assert (H : get_binary Demo.env "1.8.0" Demo.wheel_url Demo.final_py3 Demo.world
              = (inr (Some "tensorflow-1.8.0.whl"),
                 snd (get_binary Demo.env "1.8.0" Demo.wheel_url Demo.final_py3
                        Demo.world)))
    by (vm_compute; reflexivity).
  split; [exact H|].
  exact (proj2 (proj2 (proj2
           (binary_filename_names_fetched_file Demo.env "1.8.0" Demo.wheel_url
              Demo.final_py3 Demo.world _ _ H) "tensorflow-1.8.0.whl" eq_refl))).
Defined.

(** ** The whole script *)

Lemma parse_args_fields (cl : CommandLine) (args : Args) :
  parse_args cl = Some args ->
  framework_version args = cl_framework_version cl /\
  python_version args = cl_python_version cl /\
  processor_str (processor_type args) = cl_processor_type cl /\
  binary_path args = cl_binary_path cl /\
  nvidia_docker args = cl_nvidia_docker cl.
Proof.
  unfold parse_args.
  destruct (String.eqb (cl_processor_type cl) "cpu") eqn:Ecpu.
  - apply String.eqb_eq in Ecpu.
    destruct (cl_final_image_tags cl) as [[|t ts]|]; try discriminate;
      intros [= <-]; cbn; auto.
  - destruct (String.eqb (cl_processor_type cl) "gpu") eqn:Egpu; [|discriminate].
    apply String.eqb_eq in Egpu.
    destruct (cl_final_image_tags cl) as [[|t ts]|]; try discriminate;
      intros [= <-]; cbn; auto.
Qed.

(** X13: for every command line that parses, the child processes of the
    script are an initial part of: the base build and, last, the final
    build by "nvidia-docker" when --nvidia-docker is given and by "docker"
    otherwise, and between them git and python whatever the flag; the final
    build tags the repository given, or "preprod-tensorflow", with the tags
    given, or the one default tag.  The script exits with 0 only after all
    four were started. *)
Theorem script_child_processes (env : Env) (cl : CommandLine) (args : Args) (w : World) :
  parse_args cl = Some args ->
  let docker := if cl_nvidia_docker cl then "nvidia-docker" else "docker" in
  let repo := default "preprod-tensorflow" (cl_final_image_repository cl) in
  let tags :=
    match cl_final_image_tags cl with
    | Some given => given
    | None => [cl_framework_version cl +:+ "-" +:+ cl_processor_type cl +:+ "-py"
                 +:+ default "" (PyStr.getitem0 (cl_python_version cl))]
    end in
  exists n bin,
    n <= 4 /\
    calls (trace (snd (main env cl w)))
      = calls (trace w)
          ++ take n (planned_calls docker repo tags (cl_framework_version cl)
                       (cl_python_version cl) (processor_type args)
                       (OsPath.join (script_dir env) [".."; ".."]) bin) /\
    (n = 4 \/ fst (main env cl w) = 1%Z).
Proof.
  intros Hparse docker repo tags.
  destruct (parse_args_fields cl args Hparse) as (Hfw & Hpv & Hproc & Hbp & Hnv).
  destruct (parse_args_tags cl args Hparse) as (Htags & Hrepo).
  unfold main. rewrite Hparse. unfold main_body, bind.
  destruct (tags_of args w) as [[e|ts] w0] eqn:Et.
  - exists 0, None. cbn.
    unfold tags_of in Et. destruct (final_image_tags args); [|discriminate].
    unfold str_getitem0, bind in Et.
    destruct (PyStr.getitem0 (python_version args)); [discriminate|].
    injection Et as _ <-. rewrite app_nil_r. auto with lia.
  - assert (Hts : ts = tags /\ w0 = w).
    { unfold tags_of in Et. subst tags. rewrite Htags in Et.
      destruct (cl_final_image_tags cl) as [[|t l]|] eqn:Ecl; cbn in Et.
      - unfold parse_args in Hparse. rewrite Ecl in Hparse.
        destruct (if String.eqb (cl_processor_type cl) "cpu" then _ else _);
          discriminate.
      - injection Et as <- <-. auto.
      - unfold str_getitem0, bind in Et. rewrite Hpv in Et.
        destruct (PyStr.getitem0 (cl_python_version cl)); [|discriminate].
        injection Et as <- <-. rewrite Hfw, Hproc. auto. }
    destruct Hts as [-> ->].
    destruct (build_calls_prefix env (framework_version args) (python_version args)
                (binary_path args) (final_image_repository args) (docker_of args)
                (main_directory_path_of env) (processor_type args) tags w)
      as (n & Hn & Hcalls & Hdone).
    cbv zeta in Hcalls, Hdone.
    set (r := build_docker_image env (framework_version args) (python_version args)
                (processor_type args) (binary_path args) (final_image_repository args)
                tags (docker_of args) (main_directory_path_of env) w) in *.
    clearbody r.
    unfold docker_of in Hcalls. rewrite Hnv, Hrepo, Hfw, Hpv in Hcalls.
    exists n. eexists. split; [exact Hn|].
    destruct r as [[e|u] w1]; cbn [fst snd exit_status] in *.
    + split; [exact Hcalls | now right].
    + split; [exact Hcalls|]. destruct Hdone as [?|[e He]]; [now left | discriminate].
Qed.

Lemma script_child_processes_witness :
  parse_args Demo.cl_tags = Some Demo.args_tags /\
  exists n bin,
    n <= 4 /\
    calls (trace (snd (main Demo.env Demo.cl_tags Demo.world)))
      = calls (trace Demo.world)
          ++ take n (planned_calls "nvidia-docker" "tf" ["latest"; "1.8.0-gpu"] "1.8.0"
                       "3.6.5" gpu (OsPath.join (script_dir Demo.env) [".."; ".."]) bin) /\
    (n = 4 \/ fst (main Demo.env Demo.cl_tags Demo.world) = 1%Z).
Proof.
  split; [reflexivity|].
  exact (script_child_processes Demo.env Demo.cl_tags Demo.args_tags Demo.world eq_refl).
Defined.
